(** * trim_audio.py: batch trimming of MP3 files to 20 seconds

    A shallow embedding of [src/trim_audio.py] and the properties of its
    specification.  The script is a sequence of top-level statements; it is
    modelled as a computation in a state-and-exception monad over

    - the outside world (file system and codec), reached only through the
      collaborators the script calls: [import pydub], [os.listdir],
      [AudioSegment.from_mp3], [AudioSegment.export], [os.path.getsize];
    - standard output, one entry per [print] call;
    - the two module-level lists [files_processed] and [files_failed].

    The script is given twice.  [TrimAudio] is the script on a console
    that takes every line it is sent.  [Strict] is the same script with
    the console as a collaborator that may raise on a line: there a
    [print] can end a [try] body, a handler or the whole run. *)

From Stdlib Require Import List String Ascii ZArith QArith Qround Qabs Lia Bool.
From Stdlib Require Import DecimalString Permutation Qpower Qfield.
Import ListNotations.

Local Open Scope string_scope.
Local Open Scope Z_scope.

(** ** Python strings *)

Module PyStr.

(** The newline character of the literals ["\n..."]. *)
Definition nl : string := String (ascii_of_nat 10) EmptyString.

(** [s.startswith(p)]. *)
Definition startswith (s p : string) : bool := String.prefix p s.

(** [s.endswith(suf)]: the last [len(suf)] characters of [s] are [suf]. *)
Definition endswith (s suf : string) : bool :=
  (String.length suf <=? String.length s)%nat &&
  String.eqb
    (String.substring (String.length s - String.length suf)
                      (String.length suf) s)
    suf.

(** [s * n] for a string [s] and a count [n]. *)
Fixpoint repeat (s : string) (n : nat) : string :=
  match n with
  | O => EmptyString
  | S k => s ++ repeat s k
  end.

(** [str(n)] / [f"{n}"] for a non-negative integer. *)
Definition of_nat (n : nat) : string := NilZero.string_of_uint (Nat.to_uint n).

(** [os.path.join(a, b)] on POSIX for two components. *)
Definition path_join (a b : string) : string :=
  if startswith b "/" then b
  else if String.eqb a "" || endswith a "/" then a ++ b
  else a ++ "/" ++ b.

End PyStr.

(** ** Python floats

    A finite double is represented by the rational it denotes.  True
    division rounds the exact quotient to the nearest double (ties to
    even); [format(x, ".Nf")] rounds the exact value of the double to [N]
    decimals (ties to even).  The values of this program are far from the
    subnormal and overflow ranges, which are not modelled. *)

Module PyFloat.

Definition round_half_even (q : Q) : Z :=
  let f := Qfloor q in
  match Qcompare (q - inject_Z f)%Q (1 # 2)%Q with
  | Lt => f
  | Gt => f + 1
  | Eq => if Z.even f then f else f + 1
  end.

(** floor (log2 a) for a positive rational [a]. *)
Definition floor_log2 (a : Q) : Z :=
  let e := Z.log2 (Qnum a) - Z.log2 (Zpos (Qden a)) in
  if Qle_bool (Qpower 2%Q e) a then e else e - 1.

(** The double nearest to the rational [q] (53 bits of mantissa). *)
Definition round_double (q : Q) : Q :=
  if Qeq_bool q 0 then 0%Q
  else
    let a := Qabs q in
    let ulp := Qpower 2%Q (floor_log2 a - 52) in
    let m := (inject_Z (round_half_even (a / ulp)) * ulp)%Q in
    Qred (if Qle_bool 0 q then m else (- m)%Q).

(** [a / b] on two ints. *)
Definition int_truediv (a b : Z) : Q :=
  round_double (inject_Z a / inject_Z b)%Q.

(** [x / b] on a float and an int. *)
Definition truediv_int (x : Q) (b : Z) : Q :=
  round_double (x / inject_Z b)%Q.

(** The digits of [n], left-padded with zeros to [width] characters. *)
Definition zero_pad (width : nat) (n : Z) : string :=
  let d := PyStr.of_nat (Z.to_nat n) in
  PyStr.repeat "0" (width - String.length d) ++ d.

(** [f"{x:.Nf}"]. *)
Definition format_f (prec : nat) (x : Q) : string :=
  let scale := 10 ^ Z.of_nat prec in
  let s := round_half_even (Qabs x * inject_Z scale)%Q in
  let body :=
    match prec with
    | O => PyStr.of_nat (Z.to_nat s)
    | _ => PyStr.of_nat (Z.to_nat (s / scale)) ++ "." ++ zero_pad prec (s mod scale)
    end in
  if Qle_bool 0 x then body else "-" ++ body.

End PyFloat.

(** ** Exceptions

    [Exc] stands for the instances of Python's [Exception] that the
    collaborators raise; [exc_str e] is [str(e)].  [SystemExit], raised by
    [sys.exit], is not an [Exception] and no handler of the script catches
    it.  Signals delivered from outside the process are not modelled. *)

Inductive ExcClass :=
| ImportError
| ModuleNotFoundError
| OSError
| CouldntDecodeError
| CouldntEncodeError
| RuntimeError
| UnicodeEncodeError.

Record Exc := mkExc { exc_class : ExcClass; exc_str : string }.

(** [isinstance(e, ImportError)]: [ModuleNotFoundError] is a subclass. *)
Definition isinstance_ImportError (e : Exc) : bool :=
  match exc_class e with
  | ImportError | ModuleNotFoundError => true
  | _ => false
  end.

Inductive Raised :=
| RaisedException (e : Exc)
| SystemExit (code : Z).

(** ** Audio buffers

    A [pydub.AudioSegment] is indexed in milliseconds: [len(audio)] is its
    duration in ms and [audio[:n]] keeps the first [n] ms.  The buffer is
    modelled as the sequence of its one-millisecond chunks, and slicing as
    Python's slicing of a sequence. *)

Module AudioSegment.

Definition t := list Z.

(** [len(audio)] *)
Definition len (a : t) : Z := Z.of_nat (List.length a).

(** [audio[:stop]]; a negative [stop] counts from the end. *)
Definition slice_to (a : t) (stop : Z) : t :=
  if stop <? 0 then firstn (Z.to_nat (Z.max 0 (len a + stop))) a
  else firstn (Z.to_nat stop) a.

End AudioSegment.

(** ** The collaborators

    What the script asks of the outside world.  Reading operations observe
    the world; [export] changes it, also when it raises (the file is
    overwritten in place, with no temporary copy). *)

Class Collaborators := {
  World : Type;
  (** [from pydub import AudioSegment]: [None] when the import succeeds. *)
  import_pydub : World -> option Exc;
  (** [os.listdir(path)] *)
  listdir : string -> World -> Exc + list string;
  (** [AudioSegment.from_mp3(path)] *)
  from_mp3 : string -> World -> Exc + AudioSegment.t;
  (** [audio.export(path, format=..., bitrate=...)] *)
  export : AudioSegment.t -> string -> string -> string -> World -> option Exc * World;
  (** [os.path.getsize(path)], in bytes *)
  getsize : string -> World -> Exc + Z;
  (** A directory holds each of its entry names once. *)
  listdir_NoDup : forall path w names, listdir path w = inr names -> NoDup names
}.

(** ** Program state and the monad of statements *)

Section Program.

Context {C : Collaborators}.

Record State := mkState {
  world : World;
  stdout : list string;
  files_processed : list string;
  files_failed : list string
}.

Definition M (A : Type) : Type := State -> (Raised + A) * State.

Definition ret {A} (a : A) : M A := fun st => (inr a, st).

Definition bind {A B} (m : M A) (k : A -> M B) : M B :=
  fun st =>
    match m st with
    | (inr a, st') => k a st'
    | (inl r, st') => (inl r, st')
    end.

Definition raise {A} (r : Raised) : M A := fun st => (inl r, st).

(** [try: body / except Exception as e: handler e] *)
Definition try_except_Exception {A} (body : M A) (handler : Exc -> M A) : M A :=
  fun st =>
    match body st with
    | (inl (RaisedException e), st') => handler e st'
    | other => other
    end.

(** [try: body / except ImportError: handler] *)
Definition try_except_ImportError {A} (body : M A) (handler : M A) : M A :=
  fun st =>
    match body st with
    | (inl (RaisedException e), st') =>
        if isinstance_ImportError e then handler st'
        else (inl (RaisedException e), st')
    | other => other
    end.

(** [print(s)] on a console that takes the line. *)
Definition print (s : string) : M unit :=
  fun st => (inr tt, mkState (world st) (stdout st ++ [s])
                             (files_processed st) (files_failed st)).

Definition sys_exit {A} (code : Z) : M A := raise (SystemExit code).

Definition set_files_processed (l : list string) : M unit :=
  fun st => (inr tt, mkState (world st) (stdout st) l (files_failed st)).

Definition set_files_failed (l : list string) : M unit :=
  fun st => (inr tt, mkState (world st) (stdout st) (files_processed st) l).

Definition get_files_processed : M (list string) :=
  fun st => (inr (files_processed st), st).

Definition get_files_failed : M (list string) :=
  fun st => (inr (files_failed st), st).

(** [files_processed.append(x)] *)
Definition files_processed_append (x : string) : M unit :=
  fun st => (inr tt, mkState (world st) (stdout st)
                             (files_processed st ++ [x]) (files_failed st)).

(** [files_failed.append(x)] *)
Definition files_failed_append (x : string) : M unit :=
  fun st => (inr tt, mkState (world st) (stdout st)
                             (files_processed st) (files_failed st ++ [x])).

(** A call of a collaborator that reads the world. *)
Definition call {A} (f : World -> Exc + A) : M A :=
  fun st =>
    match f (world st) with
    | inr a => (inr a, st)
    | inl e => (inl (RaisedException e), st)
    end.

Definition call_import : M unit :=
  fun st =>
    match import_pydub (world st) with
    | None => (inr tt, st)
    | Some e => (inl (RaisedException e), st)
    end.

Definition call_export (a : AudioSegment.t) (path fmt bitrate : string) : M unit :=
  fun st =>
    let (r, w') := export a path fmt bitrate (world st) in
    let st' := mkState w' (stdout st) (files_processed st) (files_failed st) in
    match r with
    | None => (inr tt, st')
    | Some e => (inl (RaisedException e), st')
    end.

(** [for x in l: body x] *)
Fixpoint for_each {A} (l : list A) (body : A -> M unit) : M unit :=
  match l with
  | [] => ret tt
  | x :: rest => bind (body x) (fun _ => for_each rest body)
  end.

(** [if l: body] on a list: true when the list is not empty. *)
Definition if_nonempty {A} (l : list A) (body : M unit) : M unit :=
  match l with
  | [] => ret tt
  | _ :: _ => body
  end.

End Program.

Declare Scope py_scope.
Delimit Scope py_scope with py.
Notation "x <- m ;; k" := (bind m (fun x => k))
  (at level 61, m at next level, right associativity) : py_scope.
Notation "m ;; k" := (bind m (fun _ => k))
  (at level 61, right associativity) : py_scope.

(** ** Interleavings

    [Interleave l1 l2 l]: the list [l] is split into [l1] and [l2], every
    element going to exactly one of them and keeping its place in the
    order. *)

Inductive Interleave {A : Type} : list A -> list A -> list A -> Prop :=
| Interleave_nil : Interleave [] [] []
| Interleave_left x l1 l2 l :
    Interleave l1 l2 l -> Interleave (x :: l1) l2 (x :: l)
| Interleave_right x l1 l2 l :
    Interleave l1 l2 l -> Interleave l1 (x :: l2) (x :: l).

(** ** The script *)

Module TrimAudio.

Import PyStr.
Local Open Scope py_scope.

Section Script.

Context {C : Collaborators}.

(** Directory containing MP3 files *)
Definition music_dir : string := "music".

(** Duration in milliseconds (20 seconds = 20000 ms) *)
Definition trim_duration : Z := 20 * 1000.

(** The guard of the loop body (line 30). *)
Definition eligible (filename : string) : bool :=
  endswith filename ".mp3" && negb (startswith filename "temp_").

(** Lines 10-15: the import and its [except ImportError] clause. *)
Definition import_guard : M unit :=
  try_except_ImportError
    call_import
    (print "ERROR: pydub not installed" ;;
     print "Install with: pip install pydub" ;;
     sys_exit 1).

(** Lines 35-57: the body of the [try] statement. *)
Definition try_body (filename filepath : string) : M unit :=
  (* Load audio file *)
  audio <- call (from_mp3 filepath) ;;
  (* Get original duration *)
  let original_duration := PyFloat.int_truediv (AudioSegment.len audio) 1000 in
  print ("  Original duration: " ++ PyFloat.format_f 1 original_duration ++ "s") ;;
  (* Trim to 20 seconds *)
  let trimmed_audio := AudioSegment.slice_to audio trim_duration in
  (* Save trimmed audio (overwrites original) *)
  call_export trimmed_audio filepath "mp3" "192k" ;;
  (* Get new duration *)
  let new_duration := PyFloat.int_truediv (AudioSegment.len trimmed_audio) 1000 in
  print ("  New duration: " ++ PyFloat.format_f 1 new_duration ++ "s") ;;
  (* Get file size *)
  size <- call (getsize filepath) ;;
  let file_size := PyFloat.truediv_int (PyFloat.int_truediv size 1024) 1024 in
  print ("  New file size: " ++ PyFloat.format_f 2 file_size ++ "MB") ;;
  print "  ✓ Successfully trimmed!" ;;
  files_processed_append filename.

(** Lines 59-61: the [except Exception as e] clause. *)
Definition except_clause (filename : string) (e : Exc) : M unit :=
  print ("  ✗ Error: " ++ exc_str e) ;;
  files_failed_append filename.

(** Lines 31-61: what the loop does with an eligible name. *)
Definition process_file (filename : string) : M unit :=
  let filepath := path_join music_dir filename in
  print (nl ++ "Processing: " ++ filename) ;;
  try_except_Exception (try_body filename filepath) (except_clause filename).

(** Lines 30-61: the body of the [for] loop. *)
Definition loop_body (filename : string) : M unit :=
  if eligible filename then process_file filename else ret tt.

(** Lines 63-78. *)
Definition summary : M unit :=
  print (nl ++ repeat "=" 50) ;;
  print (nl ++ "Summary:") ;;
  processed <- get_files_processed ;;
  print ("  Successfully processed: " ++ of_nat (List.length processed)) ;;
  failed <- get_files_failed ;;
  print ("  Failed: " ++ of_nat (List.length failed)) ;;
  processed <- get_files_processed ;;
  if_nonempty processed
    (print (nl ++ "  Trimmed files:") ;;
     for_each processed (fun f => print ("    - " ++ f))) ;;
  failed <- get_files_failed ;;
  if_nonempty failed
    (print (nl ++ "  Failed files:") ;;
     for_each failed (fun f => print ("    - " ++ f))) ;;
  print (nl ++ "Done!").

(** The whole script. *)
Definition main : M unit :=
  import_guard ;;
  print "Trimming MP3 files to 20 seconds..." ;;
  print (repeat "=" 50) ;;
  set_files_processed [] ;;
  set_files_failed [] ;;
  names <- call (listdir music_dir) ;;
  for_each names loop_body ;;
  summary.

(** The state in which the interpreter starts the script. *)
Definition initial (w : World) : State := mkState w [] [] [].

(** The exit status of the process: 0 when the script runs to its end,
    the argument of [sys.exit], 1 after an uncaught exception. *)
Definition exit_status (r : Raised + unit) : Z :=
  match r with
  | inr _ => 0
  | inl (SystemExit code) => code
  | inl (RaisedException _) => 1
  end.

Definition run (w : World) : (Raised + unit) * State := main (initial w).

(** *** Vocabulary of the statements *)

(** The calls of the [try] body that can raise, in their order: the
    exception that aborts the body, if any, and the world the body leaves
    behind. *)
Definition attempt (filename : string) (w : World) : option Exc * World :=
  let filepath := path_join music_dir filename in
  match from_mp3 filepath w with
  | inl e => (Some e, w)
  | inr audio =>
      match export (AudioSegment.slice_to audio trim_duration) filepath "mp3" "192k" w with
      | (Some e, w') => (Some e, w')
      | (None, w') =>
          match getsize filepath w' with
          | inl e => (Some e, w')
          | inr _ => (None, w')
          end
      end
  end.

(** The eligible names of a listing in scan order, each with the outcome
    of its attempt in the world the previous files left. *)
Fixpoint verdicts (names : list string) (w : World) : list (string * option Exc) :=
  match names with
  | [] => []
  | name :: rest =>
      if eligible name
      then (name, fst (attempt name w)) :: verdicts rest (snd (attempt name w))
      else verdicts rest w
  end.

Definition is_success (v : string * option Exc) : bool :=
  match snd v with None => true | Some _ => false end.

Definition successes (vs : list (string * option Exc)) : list string :=
  map fst (filter is_success vs).

Definition failures (vs : list (string * option Exc)) : list string :=
  map fst (filter (fun v => negb (is_success v)) vs).


End Script.

End TrimAudio.

(** ** The console

    [print] hands its text to [sys.stdout], and the stream may raise: a
    [UnicodeEncodeError] on text it cannot encode (a file name whose bytes
    are not UTF-8 comes out of [os.listdir] with lone surrogates, which a
    UTF-8 console refuses), an [OSError] on a closed stream.
    [print_raises s w] is the exception that [print(s)] raises in the world
    [w], if any; a text that is refused is not written.

    The module [TrimAudio] above is the script on a console that accepts
    every line.  The module [Strict] below is the same script, statement by
    statement, with the console as one more collaborator. *)

Class Console {C : Collaborators} := {
  print_raises : string -> World -> option Exc
}.

Module Strict.

Import PyStr TrimAudio.
Local Open Scope py_scope.

Section Script.

Context {C : Collaborators} {K : Console}.

(** [print(s)] *)
Definition print (s : string) : M unit :=
  fun st =>
    match print_raises s (world st) with
    | Some e => (inl (RaisedException e), st)
    | None => (inr tt, mkState (world st) (stdout st ++ [s])
                                (files_processed st) (files_failed st))
    end.

(** Lines 10-15: the import and its [except ImportError] clause. *)
Definition import_guard : M unit :=
  try_except_ImportError
    call_import
    (print "ERROR: pydub not installed" ;;
     print "Install with: pip install pydub" ;;
     sys_exit 1).

(** Lines 35-57: the body of the [try] statement. *)
Definition try_body (filename filepath : string) : M unit :=
  (* Load audio file *)
  audio <- call (from_mp3 filepath) ;;
  (* Get original duration *)
  let original_duration := PyFloat.int_truediv (AudioSegment.len audio) 1000 in
  print ("  Original duration: " ++ PyFloat.format_f 1 original_duration ++ "s") ;;
  (* Trim to 20 seconds *)
  let trimmed_audio := AudioSegment.slice_to audio trim_duration in
  (* Save trimmed audio (overwrites original) *)
  call_export trimmed_audio filepath "mp3" "192k" ;;
  (* Get new duration *)
  let new_duration := PyFloat.int_truediv (AudioSegment.len trimmed_audio) 1000 in
  print ("  New duration: " ++ PyFloat.format_f 1 new_duration ++ "s") ;;
  (* Get file size *)
  size <- call (getsize filepath) ;;
  let file_size := PyFloat.truediv_int (PyFloat.int_truediv size 1024) 1024 in
  print ("  New file size: " ++ PyFloat.format_f 2 file_size ++ "MB") ;;
  print "  ✓ Successfully trimmed!" ;;
  files_processed_append filename.

(** Lines 59-61: the [except Exception as e] clause. *)
Definition except_clause (filename : string) (e : Exc) : M unit :=
  print ("  ✗ Error: " ++ exc_str e) ;;
  files_failed_append filename.

(** Lines 31-61: what the loop does with an eligible name.  The first
    [print] stands before the [try]: what it raises is not caught. *)
Definition process_file (filename : string) : M unit :=
  let filepath := path_join music_dir filename in
  print (nl ++ "Processing: " ++ filename) ;;
  try_except_Exception (try_body filename filepath) (except_clause filename).

(** Lines 30-61: the body of the [for] loop. *)
Definition loop_body (filename : string) : M unit :=
  if eligible filename then process_file filename else ret tt.

(** Lines 63-78. *)
Definition summary : M unit :=
  print (nl ++ repeat "=" 50) ;;
  print (nl ++ "Summary:") ;;
  processed <- get_files_processed ;;
  print ("  Successfully processed: " ++ of_nat (List.length processed)) ;;
  failed <- get_files_failed ;;
  print ("  Failed: " ++ of_nat (List.length failed)) ;;
  processed <- get_files_processed ;;
  if_nonempty processed
    (print (nl ++ "  Trimmed files:") ;;
     for_each processed (fun f => print ("    - " ++ f))) ;;
  failed <- get_files_failed ;;
  if_nonempty failed
    (print (nl ++ "  Failed files:") ;;
     for_each failed (fun f => print ("    - " ++ f))) ;;
  print (nl ++ "Done!").

(** The whole script. *)
Definition main : M unit :=
  import_guard ;;
  print "Trimming MP3 files to 20 seconds..." ;;
  print (repeat "=" 50) ;;
  set_files_processed [] ;;
  set_files_failed [] ;;
  names <- call (listdir music_dir) ;;
  for_each names loop_body ;;
  summary.

Definition run (w : World) : (Raised + unit) * State := main (initial w).

End Script.

End Strict.

(** ** An in-memory file system with a lossless constant-bitrate codec

    A small instance of the collaborators, used to run the script on
    concrete directories.  A file is a decodable MP3 stream or not, may be
    read-only, and its size query may fail. *)

Module Sim.

Record file := mkFile {
  decoded : option AudioSegment.t;
  size : Z;
  writable : bool;
  statable : bool
}.

Record world := mkWorld {
  pydub_installed : bool;
  dirs : list (string * list string);
  files : list (string * file)
}.

Fixpoint lookup {V} (k : string) (l : list (string * V)) : option V :=
  match l with
  | [] => None
  | (k', v) :: rest => if String.eqb k k' then Some v else lookup k rest
  end.

Fixpoint update {V} (k : string) (v : V) (l : list (string * V)) : list (string * V) :=
  match l with
  | [] => [(k, v)]
  | (k', v') :: rest =>
      if String.eqb k k' then (k, v) :: rest else (k', v') :: update k v rest
  end.

Definition sim_import (w : world) : option Exc :=
  if pydub_installed w then None
  else Some (mkExc ModuleNotFoundError "No module named 'pydub'").

Definition sim_listdir (path : string) (w : world) : Exc + list string :=
  match lookup path (dirs w) with
  | Some names => inr (nodup string_dec names)
  | None => inl (mkExc OSError ("[Errno 2] No such file or directory: '" ++ path ++ "'"))
  end.

Definition sim_from_mp3 (path : string) (w : world) : Exc + AudioSegment.t :=
  match lookup path (files w) with
  | Some f =>
      match decoded f with
      | Some a => inr a
      | None => inl (mkExc CouldntDecodeError "Decoding failed. ffmpeg returned error code: 1")
      end
  | None => inl (mkExc OSError ("[Errno 2] No such file or directory: '" ++ path ++ "'"))
  end.

(** 192 kbit/s is 24 bytes for each millisecond. *)
Definition encoded_size (a : AudioSegment.t) : Z := 24 * AudioSegment.len a.

Definition sim_export (a : AudioSegment.t) (path fmt bitrate : string) (w : world)
  : option Exc * world :=
  match lookup path (files w) with
  | Some f =>
      if writable f then
        (None, mkWorld (pydub_installed w) (dirs w)
                 (update path (mkFile (Some a) (encoded_size a) true (statable f)) (files w)))
      else (Some (mkExc OSError ("[Errno 13] Permission denied: '" ++ path ++ "'")), w)
  | None =>
      (None, mkWorld (pydub_installed w) (dirs w)
               (update path (mkFile (Some a) (encoded_size a) true true) (files w)))
  end.

Definition sim_getsize (path : string) (w : world) : Exc + Z :=
  match lookup path (files w) with
  | Some f =>
      if statable f then inr (size f)
      else inl (mkExc OSError ("[Errno 5] Input/output error: '" ++ path ++ "'"))
  | None => inl (mkExc OSError ("[Errno 2] No such file or directory: '" ++ path ++ "'"))
  end.

#[export] Instance collab : Collaborators.
Proof.
  refine {| World := world;
            import_pydub := sim_import;
            listdir := sim_listdir;
            from_mp3 := sim_from_mp3;
            export := sim_export;
            getsize := sim_getsize;
            listdir_NoDup := _ |}.
  intros path w names. unfold sim_listdir.
  destruct (lookup path (dirs w)); intros H; inversion H.
  apply NoDup_nodup.
Defined.

(** A clip of [n] milliseconds of silence. *)
Definition silence (n : Z) : AudioSegment.t := List.repeat 0 (Z.to_nat n).

Definition mp3 (a : AudioSegment.t) : file := mkFile (Some a) (encoded_size a) true true.

(** Bytes that are not an MP3 stream. *)
Definition junk (n : Z) : file := mkFile None n true true.

(** The directory of the end-to-end scenario: two songs of 30 s and 10 s,
    a temporary file and a text file. *)
Definition scenario : world :=
  mkWorld true
    [("music", ["song1.mp3"; "song2.mp3"; "temp_draft.mp3"; "notes.txt"])]
    [("music/song1.mp3", mp3 (silence 30000));
     ("music/song2.mp3", mp3 (silence 10000));
     ("music/temp_draft.mp3", mp3 (silence 30000));
     ("music/notes.txt", junk 100)].

(** A directory with a file that does not decode, a sound clip, a
    read-only clip and a clip whose size cannot be read. *)
Definition mixed : world :=
  mkWorld true
    [("music", ["bad.mp3"; "good.mp3"; "readonly.mp3"; "nostat.mp3"])]
    [("music/bad.mp3", junk 7);
     ("music/good.mp3", mp3 (silence 5));
     ("music/readonly.mp3", mkFile (Some (silence 4)) 96 false true);
     ("music/nostat.mp3", mkFile (Some (silence 3)) 72 true false)].

(** A machine without pydub, and one without the directory [music]. *)
Definition no_pydub : world := mkWorld false [("music", ["song1.mp3"])] [].

Definition no_music : world := mkWorld true [] [].

End Sim.

(** ** More directories *)

Module Worlds.

(** A directory where no name passes the test of line 30. *)
Definition nothing_eligible : Sim.world :=
  Sim.mkWorld true
    [("music", ["notes.txt"; "temp_draft.mp3"; "cover.MP3"])]
    [("music/notes.txt", Sim.junk 100);
     ("music/temp_draft.mp3", Sim.mp3 [0; 0; 0]);
     ("music/cover.MP3", Sim.mp3 [0; 0])].

(** A directory whose MP3 files are all damaged. *)
Definition all_damaged : Sim.world :=
  Sim.mkWorld true
    [("music", ["a.mp3"; "notes.txt"; "b.mp3"])]
    [("music/a.mp3", Sim.junk 10);
     ("music/notes.txt", Sim.junk 100);
     ("music/b.mp3", Sim.junk 20)].

(** The same file system on a machine where pydub is found but its
    import stops on an error of its own. *)
Definition broken_pydub : Collaborators :=
  {| World := Sim.world;
     import_pydub := fun _ => Some (mkExc RuntimeError "pydub failed to initialise");
     listdir := Sim.sim_listdir;
     from_mp3 := Sim.sim_from_mp3;
     export := Sim.sim_export;
     getsize := Sim.sim_getsize;
     listdir_NoDup := @listdir_NoDup Sim.collab |}.

End Worlds.

(** ** A UTF-8 console

    Strings stand for the bytes of the text in UTF-8, a file name for its
    bytes on disk.  A console in UTF-8 takes a text exactly when these
    bytes are well-formed UTF-8. *)

Module Terminal.

(** [pending] continuation bytes are still due, the next of them between
    [lo] and [hi]. *)
Fixpoint utf8_from (pending lo hi : nat) (s : string) : bool :=
  match s with
  | EmptyString => Nat.eqb pending 0
  | String c rest =>
      let n := nat_of_ascii c in
      match pending with
      | O =>
          if Nat.ltb n 128 then utf8_from 0 128 191 rest
          else if Nat.ltb n 194 then false
          else if Nat.ltb n 224 then utf8_from 1 128 191 rest
          else if Nat.eqb n 224 then utf8_from 2 160 191 rest
          else if Nat.eqb n 237 then utf8_from 2 128 159 rest
          else if Nat.ltb n 240 then utf8_from 2 128 191 rest
          else if Nat.eqb n 240 then utf8_from 3 144 191 rest
          else if Nat.ltb n 244 then utf8_from 3 128 191 rest
          else if Nat.eqb n 244 then utf8_from 3 128 143 rest
          else false
      | S k =>
          if Nat.leb lo n && Nat.leb n hi then utf8_from k 128 191 rest else false
      end
  end.

Definition utf8_valid (s : string) : bool := utf8_from 0 128 191 s.

Definition refusal : Exc :=
  mkExc UnicodeEncodeError
        "'utf-8' codec can't encode character: surrogates not allowed".

#[export] Instance utf8 : Console (C := Sim.collab) :=
  {| print_raises := fun s _ => if utf8_valid s then None else Some refusal |}.




End Terminal.

(** * Properties *)

(** ** Strings *)

Module PyStrFacts.

Import PyStr.

Lemma length_append (s t : string) :
  String.length (s ++ t) = (String.length s + String.length t)%nat.
Proof. induction s as [|c s IH]; simpl; [reflexivity | now rewrite IH]. Qed.

Lemma startswith_spec (s p : string) :
  startswith s p = true <-> exists rest, s = p ++ rest.
Proof.
  unfold startswith. revert s.
  induction p as [|a p IH]; intros s; simpl.
  - destruct s; split; intros _; eauto.
  - destruct s as [|b s]; simpl.
    + split; [discriminate | intros [rest H]; discriminate].
    + destruct (ascii_dec a b) as [->|Hne].
      * rewrite IH. split; intros [rest H]; exists rest.
        -- now rewrite H.
        -- now inversion H.
      * split; [discriminate | intros [rest H]; inversion H; congruence].
Qed.

Lemma substring_all (s : string) : substring 0 (String.length s) s = s.
Proof. induction s as [|c s IH]; simpl; [reflexivity | now rewrite IH]. Qed.

Lemma substring_skip (p t : string) (m : nat) :
  substring (String.length p) m (p ++ t) = substring 0 m t.
Proof. induction p as [|c p IH]; simpl; [reflexivity | exact IH]. Qed.

Lemma substring_split (s : string) (n : nat) :
  (n <= String.length s)%nat ->
  s = substring 0 n s ++ substring n (String.length s - n) s.
Proof.
  revert n. induction s as [|c s IH]; intros n Hn; simpl in *.
  - destruct n; [reflexivity | lia].
  - destruct n as [|n]; simpl.
    + now rewrite substring_all.
    + f_equal. apply IH. lia.
Qed.

Lemma endswith_spec (s suf : string) :
  endswith s suf = true <-> exists stem, s = stem ++ suf.
Proof.
  unfold endswith. rewrite andb_true_iff, Nat.leb_le, String.eqb_eq. split.
  - intros [Hlen Hsub].
    exists (substring 0 (String.length s - String.length suf) s).
    pose proof (substring_split s (String.length s - String.length suf)
                  ltac:(lia)) as H.
    replace (String.length s - (String.length s - String.length suf))%nat
      with (String.length suf) in H by lia.
    now rewrite Hsub in H.
  - intros [stem ->]. rewrite length_append. split; [lia|].
    replace (String.length stem + String.length suf - String.length suf)%nat
      with (String.length stem) by lia.
    rewrite substring_skip. apply substring_all.
Qed.

Lemma append_same_length_suffix (s1 s2 t1 t2 : string) :
  String.length t1 = String.length t2 -> s1 ++ t1 = s2 ++ t2 -> t1 = t2.
Proof.
  revert s2. induction s1 as [|a s1 IH]; intros [|b s2] Hlen H; simpl in H.
  - exact H.
  - subst t1. simpl in Hlen. rewrite length_append in Hlen. lia.
  - subst t2. simpl in Hlen. rewrite length_append in Hlen. lia.
  - inversion H. now apply (IH s2).
Qed.

End PyStrFacts.

(** ** Interleavings *)

Section InterleaveFacts.

Context {A : Type}.






End InterleaveFacts.

(** ** Statements *)

Module MonadFacts.

Section Laws.

Context {C : Collaborators}.

Lemma bind_ret {A B} (a : A) (k : A -> M B) (st : State) :
  bind (ret a) k st = k a st.
Proof. reflexivity. Qed.

Lemma bind_assoc {A B D} (m : M A) (f : A -> M B) (g : B -> M D) (st : State) :
  bind (bind m f) g st = bind m (fun x => bind (f x) g) st.
Proof. unfold bind. destruct (m st) as [[r|a] st']; reflexivity. Qed.

Lemma bind_print {B} (s : string) (k : unit -> M B) (st : State) :
  bind (print s) k st =
    k tt (mkState (world st) (stdout st ++ [s]) (files_processed st) (files_failed st)).
Proof. reflexivity. Qed.

Lemma bind_get_files_processed {B} (k : list string -> M B) (st : State) :
  bind get_files_processed k st = k (files_processed st) st.
Proof. reflexivity. Qed.

Lemma bind_get_files_failed {B} (k : list string -> M B) (st : State) :
  bind get_files_failed k st = k (files_failed st) st.
Proof. reflexivity. Qed.

Lemma for_each_print (prefix : string) (l : list string) (st : State) :
  for_each l (fun f => print (prefix ++ f)) st =
    (inr tt, mkState (world st) (stdout st ++ map (fun f => (prefix ++ f)%string) l)
               (files_processed st) (files_failed st)).
Proof.
  revert st. induction l as [|x l IH]; intros st.
  - destruct st; cbn [for_each map]. unfold ret. cbn [world stdout files_processed files_failed].
    now rewrite app_nil_r.
  - cbn [for_each map]. rewrite bind_print, IH.
    cbn [world stdout files_processed files_failed].
    now rewrite <- app_assoc.
Qed.

Lemma bind_for_each_print {B} (prefix : string) (l : list string)
      (k : unit -> M B) (st : State) :
  bind (for_each l (fun f => print (prefix ++ f))) k st =
    k tt (mkState (world st) (stdout st ++ map (fun f => (prefix ++ f)%string) l)
            (files_processed st) (files_failed st)).
Proof. unfold bind at 1. now rewrite for_each_print. Qed.

End Laws.

End MonadFacts.

(** ** One file *)

Module StepFacts.

Import PyStr TrimAudio.

Ltac unfold_stmt :=
  unfold process_file, try_body, except_clause, try_except_Exception, bind,
    print, call, call_export, files_processed_append, files_failed_append, ret;
  cbn [world stdout files_processed files_failed].

Section Step.

Context {C : Collaborators}.

Variables (filename : string) (st : State).

Let filepath := path_join music_dir filename.
Let out0 : list string :=
  (stdout st ++ [(nl ++ "Processing: " ++ filename)%string])%list.

(** The decoder raises. *)
Lemma process_file_decode_error (e : Exc) :
  from_mp3 filepath (world st) = inl e ->
  process_file filename st =
    (inr tt, mkState (world st)
               (out0 ++ ["  ✗ Error: " ++ exc_str e])
               (files_processed st) (files_failed st ++ [filename])).
Proof.
  intros H. subst filepath out0. unfold_stmt. now rewrite H.
Qed.

(** The encoder raises, having done to the world whatever it did. *)
Lemma process_file_export_error (audio : AudioSegment.t) (e : Exc) (w' : World) :
  from_mp3 filepath (world st) = inr audio ->
  export (AudioSegment.slice_to audio trim_duration) filepath "mp3" "192k" (world st)
    = (Some e, w') ->
  process_file filename st =
    (inr tt, mkState w'
               (out0 ++ ["  Original duration: "
                           ++ PyFloat.format_f 1 (PyFloat.int_truediv (AudioSegment.len audio) 1000)
                           ++ "s";
                         "  ✗ Error: " ++ exc_str e])
               (files_processed st) (files_failed st ++ [filename])).
Proof.
  intros H1 H2. subst filepath out0. unfold_stmt. rewrite H1.
  cbn [world stdout files_processed files_failed]. rewrite H2.
  cbn [world stdout files_processed files_failed].
  now rewrite <- !app_assoc.
Qed.

(** The size query raises after the file has been overwritten. *)
Lemma process_file_getsize_error (audio : AudioSegment.t) (e : Exc) (w' : World) :
  from_mp3 filepath (world st) = inr audio ->
  export (AudioSegment.slice_to audio trim_duration) filepath "mp3" "192k" (world st)
    = (None, w') ->
  getsize filepath w' = inl e ->
  process_file filename st =
    (inr tt, mkState w'
               (out0 ++ ["  Original duration: "
                           ++ PyFloat.format_f 1 (PyFloat.int_truediv (AudioSegment.len audio) 1000)
                           ++ "s";
                         "  New duration: "
                           ++ PyFloat.format_f 1
                                (PyFloat.int_truediv
                                   (AudioSegment.len (AudioSegment.slice_to audio trim_duration)) 1000)
                           ++ "s";
                         "  ✗ Error: " ++ exc_str e])
               (files_processed st) (files_failed st ++ [filename])).
Proof.
  intros H1 H2 H3. subst filepath out0. unfold_stmt. rewrite H1.
  cbn [world stdout files_processed files_failed]. rewrite H2.
  cbn [world stdout files_processed files_failed]. rewrite H3.
  cbn [world stdout files_processed files_failed].
  now rewrite <- !app_assoc.
Qed.

(** Nothing raises. *)
Lemma process_file_success (audio : AudioSegment.t) (w' : World) (size : Z) :
  from_mp3 filepath (world st) = inr audio ->
  export (AudioSegment.slice_to audio trim_duration) filepath "mp3" "192k" (world st)
    = (None, w') ->
  getsize filepath w' = inr size ->
  process_file filename st =
    (inr tt, mkState w'
               (out0 ++ ["  Original duration: "
                           ++ PyFloat.format_f 1 (PyFloat.int_truediv (AudioSegment.len audio) 1000)
                           ++ "s";
                         "  New duration: "
                           ++ PyFloat.format_f 1
                                (PyFloat.int_truediv
                                   (AudioSegment.len (AudioSegment.slice_to audio trim_duration)) 1000)
                           ++ "s";
                         "  New file size: "
                           ++ PyFloat.format_f 2
                                (PyFloat.truediv_int (PyFloat.int_truediv size 1024) 1024)
                           ++ "MB";
                         "  ✓ Successfully trimmed!"])
               (files_processed st ++ [filename]) (files_failed st)).
Proof.
  intros H1 H2 H3. subst filepath out0. unfold_stmt. rewrite H1.
  cbn [world stdout files_processed files_failed]. rewrite H2.
  cbn [world stdout files_processed files_failed]. rewrite H3.
  cbn [world stdout files_processed files_failed].
  now rewrite <- !app_assoc.
Qed.

(** In every case the statement ends normally, in the world of the
    attempt, with the name appended to the list its verdict selects. *)
Lemma process_file_attempt :
  exists out,
    process_file filename st =
      (inr tt,
       mkState (snd (attempt filename (world st))) (stdout st ++ out)
         (match fst (attempt filename (world st)) with
          | None => files_processed st ++ [filename]
          | Some _ => files_processed st
          end)
         (match fst (attempt filename (world st)) with
          | None => files_failed st
          | Some _ => files_failed st ++ [filename]
          end)).
Proof.
  unfold attempt. fold filepath.
  destruct (from_mp3 filepath (world st)) as [e|audio] eqn:H1.
  - eexists. rewrite (process_file_decode_error e H1).
    subst out0. rewrite <- app_assoc. reflexivity.
  - destruct (export (AudioSegment.slice_to audio trim_duration) filepath "mp3" "192k"
                (world st)) as [[e|] w'] eqn:H2.
    + eexists. rewrite (process_file_export_error audio e w' H1 H2).
      subst out0. rewrite <- app_assoc. reflexivity.
    + destruct (getsize filepath w') as [e|size] eqn:H3.
      * eexists. rewrite (process_file_getsize_error audio e w' H1 H2 H3).
        subst out0. rewrite <- app_assoc. reflexivity.
      * eexists. rewrite (process_file_success audio w' size H1 H2 H3).
        subst out0. rewrite <- app_assoc. reflexivity.
Qed.

End Step.

End StepFacts.

(** ** The scan and the whole run *)

Module RunFacts.

Import PyStr TrimAudio.

Section Run.

Context {C : Collaborators}.

Lemma loop_body_ineligible (filename : string) (st : State) :
  eligible filename = false -> loop_body filename st = (inr tt, st).
Proof. intros H. unfold loop_body. now rewrite H. Qed.

Lemma loop_body_eligible (filename : string) (st : State) :
  eligible filename = true -> loop_body filename st = process_file filename st.
Proof. intros H. unfold loop_body. now rewrite H. Qed.

Lemma successes_cons (name : string) (v : option Exc) (vs : list (string * option Exc)) :
  successes ((name, v) :: vs) =
    match v with None => name :: successes vs | Some _ => successes vs end.
Proof. unfold successes. simpl. unfold is_success. simpl. now destruct v. Qed.

Lemma failures_cons (name : string) (v : option Exc) (vs : list (string * option Exc)) :
  failures ((name, v) :: vs) =
    match v with None => failures vs | Some _ => name :: failures vs end.
Proof. unfold failures. simpl. unfold is_success. simpl. now destruct v. Qed.



(** The loop never raises; it appends the successes and the failures of
    the scan to the two lists, in scan order. *)
Lemma scan_spec (names : list string) (st : State) :
  exists w' out,
    for_each names loop_body st =
      (inr tt,
       mkState w' (stdout st ++ out)
         (files_processed st ++ successes (verdicts names (world st)))
         (files_failed st ++ failures (verdicts names (world st)))).
Proof.
  revert st. induction names as [|x rest IH]; intros st.
  - exists (world st), []. simpl. unfold ret. destruct st; simpl.
    now rewrite !app_nil_r.
  - simpl. unfold bind at 1. destruct (eligible x) eqn:He.
    + rewrite (loop_body_eligible _ _ He).
      destruct (StepFacts.process_file_attempt x st) as [out1 ->].
      match goal with |- context [for_each rest loop_body ?s] =>
        destruct (IH s) as [w' [out2 ->]] end.
      cbn [world stdout files_processed files_failed].
      exists w', (out1 ++ out2)%list.
      rewrite successes_cons, failures_cons.
      destruct (fst (attempt x (world st)));
        now rewrite <- ?app_assoc.
    + rewrite (loop_body_ineligible _ _ He).
      destruct (IH st) as [w' [out ->]]. now exists w', out.
Qed.

(** What lines 63-78 print. *)
Lemma summary_spec (st : State) :
  summary st =
    (inr tt,
     mkState (world st)
       (stdout st
        ++ [nl ++ repeat "=" 50;
            nl ++ "Summary:";
            "  Successfully processed: " ++ of_nat (List.length (files_processed st));
            "  Failed: " ++ of_nat (List.length (files_failed st))]
        ++ match files_processed st with
           | [] => []
           | _ :: _ => (nl ++ "  Trimmed files:")
                         :: map (fun f => "    - " ++ f) (files_processed st)
           end
        ++ match files_failed st with
           | [] => []
           | _ :: _ => (nl ++ "  Failed files:")
                         :: map (fun f => "    - " ++ f) (files_failed st)
           end
        ++ [nl ++ "Done!"])
       (files_processed st) (files_failed st)).
Proof.
  destruct st as [w out p f]. unfold summary.
  rewrite !MonadFacts.bind_print, MonadFacts.bind_get_files_processed,
    MonadFacts.bind_print, MonadFacts.bind_get_files_failed,
    MonadFacts.bind_print, MonadFacts.bind_get_files_processed.
  cbn [world stdout files_processed files_failed].
  destruct p as [|p0 p]; unfold if_nonempty at 1;
    [ rewrite MonadFacts.bind_ret
    | rewrite MonadFacts.bind_assoc, MonadFacts.bind_print,
        MonadFacts.bind_for_each_print ];
    rewrite MonadFacts.bind_get_files_failed;
    cbn [world stdout files_processed files_failed];
    (destruct f as [|f0 f]; unfold if_nonempty;
     [ rewrite MonadFacts.bind_ret
     | rewrite MonadFacts.bind_assoc, MonadFacts.bind_print,
         MonadFacts.bind_for_each_print ]);
    unfold print; cbn [world stdout files_processed files_failed];
    rewrite <- ?app_assoc; cbn [app]; rewrite <- ?app_assoc; reflexivity.
Qed.

Lemma import_guard_ok (st : State) :
  import_pydub (world st) = None -> import_guard st = (inr tt, st).
Proof.
  intros H. unfold import_guard, try_except_ImportError, call_import. now rewrite H.
Qed.

(** The library is missing: the two messages, then [sys.exit(1)]. *)
Lemma run_import_error (w : World) (e : Exc) :
  import_pydub w = Some e ->
  isinstance_ImportError e = true ->
  run w =
    (inl (SystemExit 1),
     mkState w ["ERROR: pydub not installed"; "Install with: pip install pydub"] [] []).
Proof.
  intros H Hi. unfold run, main, initial, bind at 1.
  unfold import_guard, try_except_ImportError, call_import.
  cbn [world stdout files_processed files_failed]. rewrite H, Hi.
  reflexivity.
Qed.

(** The import raises something that is not an [ImportError]. *)
Lemma run_import_other (w : World) (e : Exc) :
  import_pydub w = Some e ->
  isinstance_ImportError e = false ->
  run w = (inl (RaisedException e), initial w).
Proof.
  intros H Hi. unfold run, main, initial, bind at 1.
  unfold import_guard, try_except_ImportError, call_import.
  cbn [world stdout files_processed files_failed]. rewrite H, Hi.
  reflexivity.
Qed.

(** The directory cannot be listed: the exception leaves the script. *)
Lemma run_listdir_error (w : World) (e : Exc) :
  import_pydub w = None ->
  listdir music_dir w = inl e ->
  run w =
    (inl (RaisedException e),
     mkState w ["Trimming MP3 files to 20 seconds..."; repeat "=" 50] [] []).
Proof.
  intros Hi Hl. unfold run, main, initial, bind at 1.
  rewrite import_guard_ok by exact Hi.
  rewrite !MonadFacts.bind_print.
  unfold bind, set_files_processed, set_files_failed, call.
  cbn [world stdout files_processed files_failed]. rewrite Hl. reflexivity.
Qed.


End Run.

End RunFacts.

(** ** Audio buffers *)

Module AudioFacts.

Import TrimAudio.




End AudioFacts.

(** * The claims of the specification *)

Section Claims.

Import PyStr TrimAudio.

Context {C : Collaborators}.



(** C5. When the import of pydub raises an ImportError, the script
    prints its two fixed lines, the diagnostic and the installation hint,
    and leaves through [sys.exit(1)]: the exit status is not zero, nothing
    else is printed, the world is as it was found and both lists are
    empty, no file having been looked at. *)
Theorem C5_missing_codec_is_fatal (w : World) (e : Exc) :
  import_pydub w = Some e ->
  isinstance_ImportError e = true ->
  run w =
    (inl (SystemExit 1),
     mkState w ["ERROR: pydub not installed"; "Install with: pip install pydub"] [] []) /\
  exit_status (fst (run w)) <> 0.
Proof.
  intros H Hi. rewrite (RunFacts.run_import_error w e H Hi).
  split; [reflexivity | discriminate].
Qed.




(** C9. When [os.listdir] raises on the directory [music], the exception
    leaves the script uncaught: the run ends after the two heading lines,
    with no file processed, no summary, both lists empty and the world as
    found.  It is neither the exit of the missing-library path nor a
    failure recorded for a file. *)
Theorem C9_unlistable_directory (w : World) (e : Exc) :
  import_pydub w = None ->
  listdir music_dir w = inl e ->
  run w =
    (inl (RaisedException e),
     mkState w ["Trimming MP3 files to 20 seconds..."; repeat "=" 50] [] []) /\
  (forall code, fst (run w) <> inl (SystemExit code)) /\
  fst (run w) <> inr tt /\
  ~ In (nl ++ "Summary:") (stdout (snd (run w))).
Proof.
  intros Hi Hl. rewrite (RunFacts.run_listdir_error w e Hi Hl).
  cbn [fst snd stdout].
  repeat split; try discriminate.
  intros [H|[H|[]]]; discriminate H.
Qed.


End Claims.

(** ** The in-memory codec is exact *)

Module SimFacts.

Import Sim.



End SimFacts.

(** * Runs on concrete directories *)

Section Scenarios.

Import PyStr TrimAudio.

Local Abbreviation sim := Sim.collab.

(** The test is case-sensitive and reads the whole suffix. *)
Example eligible_examples :
  map eligible ["song.mp3"; "song.MP3"; "song.wav"; "temp_song.mp3"; ".mp3"; "mp3"; "notes.txt"]
  = [true; false; false; false; true; false; false].
Proof. reflexivity. Qed.

(** A file renamed to end in [.mp3] becomes eligible, unless its name
    starts with [temp_]. *)
Lemma eligible_after_rename (stem : string) :
  startswith (stem ++ ".mp3") "temp_" = false -> eligible (stem ++ ".mp3") = true.
Proof.
  intros H. unfold eligible. rewrite H, andb_true_r.
  apply PyStrFacts.endswith_spec. now exists stem.
Qed.

(** A name prefixed with [temp_] is excluded. *)
Lemma temp_prefix_excluded (name : string) : eligible ("temp_" ++ name) = false.
Proof.
  unfold eligible.
  replace (startswith ("temp_" ++ name) "temp_") with true.
  - apply andb_false_r.
  - symmetry. apply PyStrFacts.startswith_spec. now exists name.
Qed.

(** The end-to-end scenario of the specification. *)
Example scenario_run :
  let '(r, st) := run (C := sim) Sim.scenario in
  r = inr tt /\
  files_processed st = ["song1.mp3"; "song2.mp3"] /\
  files_failed st = [] /\
  stdout st =
    ["Trimming MP3 files to 20 seconds...";
     "==================================================";
     nl ++ "Processing: song1.mp3";
     "  Original duration: 30.0s";
     "  New duration: 20.0s";
     "  New file size: 0.46MB";
     "  ✓ Successfully trimmed!";
     nl ++ "Processing: song2.mp3";
     "  Original duration: 10.0s";
     "  New duration: 10.0s";
     "  New file size: 0.23MB";
     "  ✓ Successfully trimmed!";
     nl ++ "==================================================";
     nl ++ "Summary:";
     "  Successfully processed: 2";
     "  Failed: 0";
     nl ++ "  Trimmed files:";
     "    - song1.mp3";
     "    - song2.mp3";
     nl ++ "Done!"].
Proof. vm_compute. repeat split. Qed.

(** One bad file among four: the others are still attempted. *)
Example mixed_run :
  let '(r, st) := run (C := sim) Sim.mixed in
  r = inr tt /\
  files_processed st = ["good.mp3"] /\
  files_failed st = ["bad.mp3"; "readonly.mp3"; "nostat.mp3"].
Proof. vm_compute. repeat split. Qed.

(** A clip of exactly 20000 ms is not shortened. *)
Example boundary_20000 :
  AudioSegment.len (AudioSegment.slice_to (Sim.silence 20000) trim_duration) = 20000 /\
  AudioSegment.len (AudioSegment.slice_to (Sim.silence 20001) trim_duration) = 20000 /\
  AudioSegment.len (AudioSegment.slice_to (Sim.silence 5000) trim_duration) = 5000.
Proof. vm_compute. repeat split. Qed.

(** The 30 s song processed twice: the first run cuts it to 20 s, the
    second run finds 20 s and leaves 20 s. *)
Example long_song_processed_twice :
  let st1 := snd (process_file (C := sim) "song1.mp3" (initial (C := sim) Sim.scenario)) in
  let st2 := snd (process_file (C := sim) "song1.mp3"
                    (mkState (world st1) [] [] [])) in
  stdout st1 =
    [nl ++ "Processing: song1.mp3";
     "  Original duration: 30.0s";
     "  New duration: 20.0s";
     "  New file size: 0.46MB";
     "  ✓ Successfully trimmed!"] /\
  stdout st2 =
    [nl ++ "Processing: song1.mp3";
     "  Original duration: 20.0s";
     "  New duration: 20.0s";
     "  New file size: 0.46MB";
     "  ✓ Successfully trimmed!"].
Proof. vm_compute. split; reflexivity. Qed.

End Scenarios.

(** * The claims at concrete inputs *)

Section Witnesses.

Import PyStr TrimAudio.

Local Abbreviation sim := Sim.collab.



Lemma C5_missing_codec_is_fatal_witness :
  exit_status (fst (run (C := sim) Sim.no_pydub)) <> 0.
Proof.
  apply (@C5_missing_codec_is_fatal sim Sim.no_pydub
           (mkExc ModuleNotFoundError "No module named 'pydub'"));
    reflexivity.
Defined.




Lemma C9_unlistable_directory_witness :
  ~ In (nl ++ "Summary:") (stdout (snd (run (C := sim) Sim.no_music))).
Proof.
  apply (@C9_unlistable_directory sim Sim.no_music
           (mkExc OSError "[Errno 2] No such file or directory: 'music'"));
    reflexivity.
Defined.



End Witnesses.

(** ** Floats *)

Module PyFloatFacts.

Import PyFloat.














End PyFloatFacts.

(** * Further properties of the script *)

Module ScanFacts.

Import PyStr TrimAudio.

Section Scan.

Context {C : Collaborators}.

(** The state in which the loop starts, and how the run ends from the
    state the loop leaves. *)
Lemma run_decomposition (w : World) (names : list string) :
  import_pydub w = None ->
  listdir music_dir w = inr names ->
  run w =
    summary
      (snd (for_each names loop_body
              (mkState w ["Trimming MP3 files to 20 seconds..."; repeat "=" 50] [] []))).
Proof.
  intros Hi Hl. unfold run, main, initial, bind at 1.
  rewrite RunFacts.import_guard_ok by exact Hi.
  rewrite !MonadFacts.bind_print.
  unfold bind at 1, set_files_processed. unfold bind at 1, set_files_failed.
  unfold bind at 1, call.
  cbn [world stdout files_processed files_failed]. rewrite Hl.
  unfold bind at 1. cbn [app].
  match goal with |- context [for_each names loop_body ?s] =>
    destruct (RunFacts.scan_spec names s) as [w' [out ->]] end.
  reflexivity.
Qed.

Lemma scan_nothing_eligible (names : list string) (st : State) :
  (forall name, In name names -> eligible name = false) ->
  for_each names loop_body st = (inr tt, st).
Proof.
  revert st. induction names as [|x rest IH]; intros st H; [reflexivity|].
  cbn [for_each]. unfold bind.
  rewrite (RunFacts.loop_body_ineligible x st) by (apply H; now left).
  apply IH. intros name Hin. apply H. now right.
Qed.

End Scan.

End ScanFacts.

Section Extras.

Import PyStr TrimAudio.

Context {C : Collaborators}.

(** X2. When no name of the listing is eligible (an empty directory for
    one), the run leaves the world as found and prints the two heading
    lines, the summary with both counts at 0 and neither file section, and
    the closing line. *)
Theorem X2_nothing_eligible (w : World) (names : list string) :
  import_pydub w = None ->
  listdir music_dir w = inr names ->
  (forall name, In name names -> eligible name = false) ->
  run w =
    (inr tt,
     mkState w
       ["Trimming MP3 files to 20 seconds...";
        "==================================================";
        nl ++ "==================================================";
        nl ++ "Summary:";
        "  Successfully processed: 0";
        "  Failed: 0";
        nl ++ "Done!"]
       [] []).
Proof.
  intros Hi Hl Hno.
  rewrite (ScanFacts.run_decomposition w names Hi Hl).
  rewrite (ScanFacts.scan_nothing_eligible names _ Hno).
  cbn [snd]. rewrite RunFacts.summary_spec. reflexivity.
Qed.

(** X5. The path under which a name is decoded and overwritten
    determines the name: two names of a listing never share a path.  For
    a name that does not start with a slash, as all the names of a listing
    are, the path is the name inside the directory music. *)
Theorem X5_filepath_injective (a b : string) :
  (startswith a "/" = false -> path_join music_dir a = "music/" ++ a) /\
  (path_join music_dir a = path_join music_dir b -> a = b).
Proof.
  assert (forall x, path_join music_dir x =
                    if startswith x "/" then x else "music/" ++ x) as Hshape.
  { intros x. unfold path_join. now destruct (startswith x "/"). }
  split.
  - intros H. now rewrite Hshape, H.
  - rewrite !Hshape.
    destruct (startswith a "/") eqn:Ha; destruct (startswith b "/") eqn:Hb.
    + trivial.
    + intros ->. discriminate Ha.
    + intros <-. discriminate Hb.
    + intros H. now inversion H.
Qed.


(** X7. The extension is compared character by character: a name whose
    last four characters are anything but .mp3 (such as .MP3, .Mp3 or
    .wav) is not eligible. *)
Theorem X7_other_extensions_skipped (stem ext : string) :
  String.length ext = 4%nat ->
  ext <> ".mp3" ->
  eligible (stem ++ ext) = false.
Proof.
  intros Hlen Hext. unfold eligible.
  destruct (endswith (stem ++ ext) ".mp3") eqn:E; [|reflexivity].
  apply PyStrFacts.endswith_spec in E. destruct E as [stem' E].
  exfalso. apply Hext.
  now apply (PyStrFacts.append_same_length_suffix stem stem').
Qed.


(** X12. Only an ImportError is caught at the import: when the import
    of pydub raises any other exception, that exception leaves the script
    at once, with nothing printed, the installation hint included, and the
    world untouched. *)
Theorem X12_other_import_errors_escape (w : World) (e : Exc) :
  import_pydub w = Some e ->
  isinstance_ImportError e = false ->
  run w = (inl (RaisedException e), mkState w [] [] []) /\
  exit_status (fst (run w)) = 1.
Proof.
  intros H Hi. rewrite (RunFacts.run_import_other w e H Hi).
  now split.
Qed.

End Extras.

(** * The further properties at concrete inputs *)

Section ExtraWitnesses.

Import PyStr TrimAudio.

Local Abbreviation sim := Sim.collab.

Lemma X2_nothing_eligible_witness :
  stdout (snd (run (C := sim) Worlds.nothing_eligible)) =
    ["Trimming MP3 files to 20 seconds...";
     "==================================================";
     nl ++ "==================================================";
     nl ++ "Summary:";
     "  Successfully processed: 0";
     "  Failed: 0";
     nl ++ "Done!"].
Proof.
  rewrite (@X2_nothing_eligible sim Worlds.nothing_eligible
             ["notes.txt"; "temp_draft.mp3"; "cover.MP3"]).
  - reflexivity.
  - reflexivity.
  - reflexivity.
  - intros name [<-|[<-|[<-|[]]]]; reflexivity.
Defined.

Lemma X5_filepath_injective_witness :
  path_join music_dir "song1.mp3" = "music/" ++ "song1.mp3".
Proof.
  apply (proj1 (X5_filepath_injective "song1.mp3" "song2.mp3")).
  reflexivity.
Defined.


Lemma X7_other_extensions_skipped_witness : eligible ("song" ++ ".MP3") = false.
Proof.
  apply X7_other_extensions_skipped.
  - reflexivity.
  - discriminate.
Defined.


Lemma X12_other_import_errors_escape_witness :
  exit_status (fst (run (C := Worlds.broken_pydub) Sim.scenario)) = 1.
Proof.
  apply (@X12_other_import_errors_escape Worlds.broken_pydub Sim.scenario
           (mkExc RuntimeError "pydub failed to initialise"));
    reflexivity.
Defined.

End ExtraWitnesses.

(** * The script on a console that may refuse a line *)

Module StrictFacts.

Import PyStr TrimAudio.

(** Case analysis on what the collaborators return, call after call. *)
Ltac split_calls :=
  repeat (cbn [world stdout files_processed files_failed fst snd];
          match goal with
          | |- context [print_raises ?s ?w] => destruct (print_raises s w) eqn:?
          | |- context [from_mp3 ?p ?w] => destruct (from_mp3 p w) eqn:?
          | |- context [export ?a ?p ?f ?b ?w] =>
              destruct (export a p f b w) as [[?|] ?] eqn:?
          | |- context [getsize ?p ?w] => destruct (getsize p w) eqn:?
          end);
  cbn [world stdout files_processed files_failed fst snd].

Section Facts.

Context {C : Collaborators} {K : Console}.

(** A statement that leaves the world and the two lists as they are. *)
Local Abbreviation keeps m :=
  (forall st,
     world (snd (m st)) = world st /\
     files_processed (snd (m st)) = files_processed st /\
     files_failed (snd (m st)) = files_failed st).

Lemma keeps_print (s : string) : keeps (Strict.print s).
Proof. intros st. unfold Strict.print. split_calls; auto. Qed.

Lemma keeps_ret {A} (a : A) : keeps (ret a).
Proof. intros st. cbn. auto. Qed.

Lemma keeps_bind {A B} (m : M A) (k : A -> M B) :
  keeps m -> (forall a, keeps (k a)) -> keeps (bind m k).
Proof.
  intros Hm Hk st. unfold bind. specialize (Hm st).
  destruct (m st) as [[r|a] st1]; cbn [snd] in *; [exact Hm|].
  destruct (Hk a st1) as [H1 [H2 H3]]. destruct Hm as [G1 [G2 G3]].
  rewrite H1, H2, H3. auto.
Qed.

Lemma keeps_for_each {A} (l : list A) (body : A -> M unit) :
  (forall a, keeps (body a)) -> keeps (for_each l body).
Proof.
  intros Hb. induction l as [|x l IH]; cbn [for_each].
  - apply keeps_ret.
  - apply keeps_bind; [apply Hb | intros _; exact IH].
Qed.

Lemma keeps_if_nonempty {A} (l : list A) (body : M unit) :
  keeps body -> keeps (if_nonempty l body).
Proof. intros Hb. destruct l; [apply keeps_ret | exact Hb]. Qed.

(** The summary prints, or stops printing, and changes nothing else. *)
Lemma keeps_summary : keeps Strict.summary.
Proof.
  unfold Strict.summary.
  repeat first
    [ apply keeps_print
    | apply keeps_if_nonempty
    | apply keeps_for_each; intros ?
    | apply keeps_bind; [|intros ?]
    | (intros st; cbn; auto) ].
Qed.

(** What one eligible name does to the two lists: the statement ends
    with the name appended to exactly one of them, or it is left by an
    exception and both lists are as before. *)
Lemma process_file_lists (filename : string) (st : State) :
  (fst (Strict.process_file filename st) = inr tt /\
   ((files_processed (snd (Strict.process_file filename st))
       = (files_processed st ++ [filename])%list /\
     files_failed (snd (Strict.process_file filename st)) = files_failed st) \/
    (files_processed (snd (Strict.process_file filename st)) = files_processed st /\
     files_failed (snd (Strict.process_file filename st))
       = (files_failed st ++ [filename])%list))) \/
  ((exists e, fst (Strict.process_file filename st) = inl (RaisedException e)) /\
   files_processed (snd (Strict.process_file filename st)) = files_processed st /\
   files_failed (snd (Strict.process_file filename st)) = files_failed st).
Proof.
  unfold Strict.process_file, try_except_Exception, Strict.try_body,
    Strict.except_clause, bind, Strict.print, call, call_export,
    files_processed_append, files_failed_append.
  split_calls;
    solve [ left; split; [reflexivity | auto]
          | right; split; [eexists; reflexivity | auto] ].
Qed.

Ltac unfold_strict :=
  unfold Strict.process_file, try_except_Exception, Strict.try_body,
    Strict.except_clause, bind, Strict.print, call, call_export,
    files_processed_append, files_failed_append.






Lemma for_each_cons_eligible (x : string) (rest : list string) (st : State) :
  eligible x = true ->
  for_each (x :: rest) Strict.loop_body st =
    match Strict.process_file x st with
    | (inr _, s1) => for_each rest Strict.loop_body s1
    | (inl r, s1) => (inl r, s1)
    end.
Proof.
  intros He. cbn [for_each]. unfold bind, Strict.loop_body at 1. now rewrite He.
Qed.

Lemma for_each_cons_ineligible (x : string) (rest : list string) (st : State) :
  eligible x = false ->
  for_each (x :: rest) Strict.loop_body st = for_each rest Strict.loop_body st.
Proof.
  intros He. cbn [for_each]. unfold bind, Strict.loop_body at 1. now rewrite He.
Qed.

(** The scan: when it ends, the two lists have received the eligible
    names of the listing, each in one of them; when an exception stops
    it at some name, they have received the eligible names that stand
    before that name. *)
Lemma scan_lists (names : list string) (st : State) :
  exists done p f,
    files_processed (snd (for_each names Strict.loop_body st))
      = (files_processed st ++ p)%list /\
    files_failed (snd (for_each names Strict.loop_body st))
      = (files_failed st ++ f)%list /\
    Interleave p f (filter eligible done) /\
    ((fst (for_each names Strict.loop_body st) = inr tt /\ done = names) \/
     (exists e x rest,
        fst (for_each names Strict.loop_body st) = inl (RaisedException e) /\
        names = (done ++ x :: rest)%list /\ eligible x = true)).
Proof.
  revert st. induction names as [|x rest IH]; intros st.
  - exists [], [], []. cbn. rewrite !app_nil_r.
    repeat split; [constructor | now left].
  - destruct (eligible x) eqn:He.
    + rewrite (for_each_cons_eligible x rest st He).
      pose proof (process_file_lists x st) as Hx.
      destruct (Strict.process_file x st) as [[r|[]] s1]; cbn [fst snd] in Hx.
      * destruct Hx as [[Hr _]|[[e Hr] [Hp Hf]]]; [discriminate Hr|].
        exists [], [], []. cbn [fst snd app filter]. rewrite Hp, Hf, !app_nil_r.
        repeat split; [constructor|]. right. exists e, x, rest. now repeat split.
      * destruct Hx as [[_ Hx]|[[e Hr] _]]; [|discriminate Hr].
        destruct (IH s1) as [done [p [f [Hp [Hf [HI Hend]]]]]].
        destruct Hx as [[Hp1 Hf1]|[Hp1 Hf1]].
        -- exists (x :: done), (x :: p), f. cbn [filter]. rewrite He, Hp, Hf, Hp1, Hf1.
           rewrite <- app_assoc. repeat split; [now constructor|].
           destruct Hend as [[Hr ->]|[e [y [rest' [Hr [-> Hy]]]]]]; [now left|].
           right. exists e, y, rest'. now repeat split.
        -- exists (x :: done), p, (x :: f). cbn [filter]. rewrite He, Hp, Hf, Hp1, Hf1.
           rewrite <- app_assoc. repeat split; [now constructor|].
           destruct Hend as [[Hr ->]|[e [y [rest' [Hr [-> Hy]]]]]]; [now left|].
           right. exists e, y, rest'. now repeat split.
    + rewrite (for_each_cons_ineligible x rest st He).
      destruct (IH st) as [done [p [f [Hp [Hf [HI Hend]]]]]].
      exists (x :: done), p, f. cbn [filter]. rewrite He.
      repeat split; trivial.
      destruct Hend as [[Hr ->]|[e [y [rest' [Hr [-> Hy]]]]]]; [now left|].
      right. exists e, y, rest'. now repeat split.
Qed.

(** A run stops before the scan with both lists empty, or it lists the
    directory and ends with the lists as the scan left them. *)
Lemma run_lists (w : World) :
  (fst (Strict.run w) <> inr tt /\
   world (snd (Strict.run w)) = w /\
   files_processed (snd (Strict.run w)) = [] /\
   files_failed (snd (Strict.run w)) = []) \/
  (exists names,
     import_pydub w = None /\
     listdir music_dir w = inr names /\
     world (snd (Strict.run w))
       = world
           (snd (for_each names Strict.loop_body
                   (mkState w ["Trimming MP3 files to 20 seconds..."; repeat "=" 50] [] []))) /\
     files_processed (snd (Strict.run w))
       = files_processed
           (snd (for_each names Strict.loop_body
                   (mkState w ["Trimming MP3 files to 20 seconds..."; repeat "=" 50] [] []))) /\
     files_failed (snd (Strict.run w))
       = files_failed
           (snd (for_each names Strict.loop_body
                   (mkState w ["Trimming MP3 files to 20 seconds..."; repeat "=" 50] [] []))) /\
     (fst (Strict.run w) = inr tt ->
      fst (for_each names Strict.loop_body
             (mkState w ["Trimming MP3 files to 20 seconds..."; repeat "=" 50] [] []))
        = inr tt)).
Proof.
  unfold Strict.run, Strict.main, initial, Strict.import_guard,
    try_except_ImportError, call_import, bind, Strict.print, sys_exit, raise,
    set_files_processed, set_files_failed, call.
  repeat (cbn [world stdout files_processed files_failed fst snd app];
          match goal with
          | |- context [import_pydub w] => destruct (import_pydub w) eqn:?
          | |- context [isinstance_ImportError ?e] => destruct (isinstance_ImportError e)
          | |- context [print_raises ?s ?x] => destruct (print_raises s x) eqn:?
          | |- context [listdir ?d ?x] => destruct (listdir d x) eqn:?
          end);
    cbn [world stdout files_processed files_failed fst snd app];
    try solve [left; repeat split; (discriminate || reflexivity)].
  right.
  match goal with |- context [for_each ?l Strict.loop_body ?s0] =>
    exists l; destruct (for_each l Strict.loop_body s0) as [[r|[]] s1] end;
    cbn [fst snd].
  - repeat split; trivial; discriminate.
  - destruct (keeps_summary s1) as [Hw [Hp Hf]]. now repeat split.
Qed.

(** A file that does not decode is not exported, whatever the console
    does with the lines. *)
Lemma process_file_undecodable (filename : string) (st : State) (e : Exc) :
  from_mp3 (path_join music_dir filename) (world st) = inl e ->
  world (snd (Strict.process_file filename st)) = world st /\
  files_processed (snd (Strict.process_file filename st)) = files_processed st.
Proof.
  intros H. unfold_strict.
  destruct (print_raises (nl ++ "Processing: " ++ filename) (world st));
    cbn [world stdout files_processed files_failed fst snd]; [now split|].
  rewrite H. split_calls; now split.
Qed.

Lemma scan_undecodable (names : list string) (st : State) :
  (forall name, In name names -> eligible name = true ->
     exists e, from_mp3 (path_join music_dir name) (world st) = inl e) ->
  world (snd (for_each names Strict.loop_body st)) = world st /\
  files_processed (snd (for_each names Strict.loop_body st)) = files_processed st.
Proof.
  revert st. induction names as [|x rest IH]; intros st H; [now split|].
  destruct (eligible x) eqn:He.
  - rewrite (for_each_cons_eligible x rest st He).
    destruct (H x (or_introl eq_refl) He) as [e Hx].
    destruct (process_file_undecodable x st e Hx) as [Hw Hp].
    destruct (Strict.process_file x st) as [[r|[]] s1]; cbn [snd] in *;
      [now split|].
    rewrite <- Hw, <- Hp. apply IH.
    intros name Hin. rewrite Hw. apply H. now right.
  - rewrite (for_each_cons_ineligible x rest st He). apply IH.
    intros name Hin. apply H. now right.
Qed.

Lemma Interleave_nil_l {A} (f l : list A) : Interleave [] f l -> f = l.
Proof.
  revert f. induction l as [|x l IH]; intros f H; inversion H; subst;
    [reflexivity|]. f_equal. now apply IH.
Qed.

(** On a console that takes every line, the statements are those of
    [TrimAudio]. *)
Section Accepting.

Hypothesis accepts : forall s w, print_raises s w = None.

Lemma print_accepting (s : string) (st : State) : Strict.print s st = print s st.
Proof. unfold Strict.print, print. now rewrite accepts. Qed.

Lemma bind_ext {A B} (m m' : M A) (k k' : A -> M B) (st : State) :
  (forall s, m s = m' s) -> (forall a s, k a s = k' a s) ->
  bind m k st = bind m' k' st.
Proof.
  intros Hm Hk. unfold bind. rewrite Hm.
  destruct (m' st) as [[r|a] s1]; [reflexivity | apply Hk].
Qed.

Lemma for_each_ext {A} (l : list A) (body body' : A -> M unit) (st : State) :
  (forall a s, body a s = body' a s) ->
  for_each l body st = for_each l body' st.
Proof.
  intros Hb. revert st. induction l as [|x l IH]; intros st; cbn [for_each];
    [reflexivity|].
  apply bind_ext; [apply Hb | intros _; exact IH].
Qed.

Ltac same_statements :=
  repeat first
    [ reflexivity
    | apply print_accepting
    | apply bind_ext; intros
    | apply for_each_ext; intros ].

Lemma process_file_accepting (filename : string) (st : State) :
  Strict.process_file filename st = process_file filename st.
Proof.
  unfold Strict.process_file, process_file.
  apply bind_ext; intros; [apply print_accepting|].
  unfold try_except_Exception.
  replace (Strict.try_body filename (path_join music_dir filename) s)
    with (try_body filename (path_join music_dir filename) s).
  - destruct (try_body filename (path_join music_dir filename) s) as [[[e|c]|[]] s1];
      try reflexivity.
    unfold Strict.except_clause, except_clause. same_statements.
  - unfold Strict.try_body, try_body. symmetry. same_statements.
Qed.

Lemma summary_accepting (st : State) : Strict.summary st = summary st.
Proof.
  unfold Strict.summary, summary.
  repeat (apply bind_ext; intros; [try reflexivity; try apply print_accepting|]);
    try apply print_accepting.
  all: try (match goal with |- if_nonempty ?l _ _ = _ => destruct l end;
            cbn [if_nonempty]; same_statements).
Qed.

Lemma run_accepting (w : World) : Strict.run w = run w.
Proof.
  unfold Strict.run, run, Strict.main, main.
  apply bind_ext; intros.
  { unfold Strict.import_guard, import_guard, try_except_ImportError.
    destruct (call_import s) as [[[e|c]|[]] s1]; try reflexivity.
    destruct (isinstance_ImportError e); [|reflexivity]. same_statements. }
  do 2 (apply bind_ext; intros; [apply print_accepting|]).
  do 3 (apply bind_ext; intros; [reflexivity|]).
  apply bind_ext; intros; [|apply summary_accepting].
  apply for_each_ext. intros x s'. unfold Strict.loop_body, loop_body.
  destruct (eligible x); [apply process_file_accepting | reflexivity].
Qed.

End Accepting.

End Facts.

End StrictFacts.

(** * The claims that depend on the console *)

Section ConsoleClaims.

Import PyStr TrimAudio.

Context {C : Collaborators} {K : Console}.



(** X4. When none of the eligible files of the listing can be decoded,
    nothing is exported: in every run, ended normally or cut short, the
    world at the end is the world at the start and no file is reported as
    processed; when the run ends normally, the failed list is the
    eligible names in the order of the listing. *)
Theorem X4_undecodable_files_are_left_alone (w : World) (names : list string) :
  listdir music_dir w = inr names ->
  (forall name, In name names -> eligible name = true ->
     exists e, from_mp3 (path_join music_dir name) w = inl e) ->
  world (snd (Strict.run w)) = w /\
  files_processed (snd (Strict.run w)) = [] /\
  (fst (Strict.run w) = inr tt ->
   files_failed (snd (Strict.run w)) = filter eligible names).
Proof.
  intros Hl Hbad.
  destruct (StrictFacts.run_lists w)
    as [[Hr [Hw [Hp Hf]]]|[names' [Hi [Hl' [Hw [Hp [Hf Hend]]]]]]].
  { repeat split; trivial. intros H. contradiction. }
  rewrite Hl in Hl'. injection Hl' as <-.
  rewrite Hw, Hp, Hf.
  match goal with |- context [for_each names Strict.loop_body ?s0] =>
    destruct (StrictFacts.scan_undecodable names s0 Hbad) as [Gw Gp];
    destruct (StrictFacts.scan_lists names s0) as [done [p [f [Hp' [Hf' [HI Hdone]]]]]];
    cbn [world files_processed files_failed app] in Gw, Gp, Hp', Hf' end.
  repeat split; trivial.
  intros Hfin. apply Hend in Hfin.
  destruct Hdone as [[_ ->]|[e [x [rest [Hr' _]]]]];
    [|rewrite Hfin in Hr'; discriminate Hr'].
  rewrite Hf'. rewrite Gp in Hp'. subst p.
  now apply StrictFacts.Interleave_nil_l.
Qed.

End ConsoleClaims.

Section ConsoleWitnesses.

Import PyStr TrimAudio.

Local Abbreviation sim := Sim.collab.
Local Abbreviation tty := Terminal.utf8.

(** The run on the directory of four files, on a UTF-8 console. *)
Example mixed_run_on_console :
  let '(r, st) := Strict.run (C := sim) (K := tty) Sim.mixed in
  r = inr tt /\
  files_processed st = ["good.mp3"] /\
  files_failed st = ["bad.mp3"; "readonly.mp3"; "nostat.mp3"].
Proof. vm_compute. repeat split. Qed.





Lemma X4_undecodable_files_are_left_alone_witness :
  world (snd (Strict.run (C := sim) (K := tty) Worlds.all_damaged)) = Worlds.all_damaged /\
  files_processed (snd (Strict.run (C := sim) (K := tty) Worlds.all_damaged)) = [].
Proof.
  destruct (@X4_undecodable_files_are_left_alone sim tty Worlds.all_damaged
              ["a.mp3"; "notes.txt"; "b.mp3"]) as [H1 [H2 _]].
  - reflexivity.
  - intros name [<-|[<-|[<-|[]]]] He.
    + eexists. reflexivity.
    + discriminate He.
    + eexists. reflexivity.
  - split; [exact H1 | exact H2].
Defined.

End ConsoleWitnesses.
